(** * pysh.filters: typed pipeline stages and their composition

    A shallow embedding of [pysh/filters.py].  Python objects that the
    module mutates (the [io.BytesIO] buffers it allocates, the process's
    standard output) live in an explicit store; every callable is a
    function in a state-and-exception monad over that store. *)

From Stdlib Require Import ZArith Strings.Byte.
From stdpp Require Import base list strings.

Local Open Scope string_scope.
Local Open Scope list_scope.

(** ** Exceptions *)

(** The exception classes the module raises itself ([RuntimeError],
    [NotImplementedError], the [AssertionError] of [assert False]) and
    those the interpreter and [io] raise on its behalf. *)
Inductive exn : Type :=
  | RuntimeError
  | NotImplementedError
  | AssertionError
  | TypeError
  | AttributeError
  | ValueError
  | UnsupportedOperation.

#[global] Instance exn_eq_dec : EqDecision exn.
Proof. solve_decision. Defined.

(** [issubclass e base]: Python's builtin hierarchy restricted to [exn].
    [NotImplementedError] derives from [RuntimeError], and
    [io.UnsupportedOperation] from [ValueError]. *)
Definition issubclass (e base : exn) : bool :=
  bool_decide (e = base) ||
  match e, base with
  | NotImplementedError, RuntimeError => true
  | UnsupportedOperation, ValueError => true
  | _, _ => false
  end.

(** ** Values and the object store *)

Definition bytes := list byte.

Inductive stream_ref : Type :=
  | Stdout            (* sys.stdout.buffer *)
  | Buf (n : nat).    (* the n-th io.BytesIO allocated so far *)

Inductive value : Type :=
  | VNone
  | VInt (z : Z)
  | VStr (s : string)
  | VBytes (b : bytes)
  | VStream (r : stream_ref).

Record BytesIO : Type := mkBytesIO {
  data : bytes;
  pos : nat;
  closed : bool
}.

Record heap : Type := mkHeap {
  bufs : list BytesIO;
  stdout : bytes
}.

Inductive outcome (A : Type) : Type :=
  | Return (a : A)
  | Raise (e : exn).
Arguments Return {A} a.
Arguments Raise {A} e.

(** ** The monad of Python computations *)

Definition M (A : Type) : Type := heap -> outcome A * heap.

Definition ret {A} (a : A) : M A := fun h => (Return a, h).

Definition raise {A} (e : exn) : M A := fun h => (Raise e, h).

Definition bind {A B} (m : M A) (k : A -> M B) : M B :=
  fun h =>
    match m h with
    | (Return a, h') => k a h'
    | (Raise e, h') => (Raise e, h')
    end.

(** stdpp's monad notation: [x ← m; k] and [m;; k]. *)
#[global] Instance M_ret : MRet M := @ret.
#[global] Instance M_bind : MBind M := fun A B k m => bind m k.

(** The same for code that raises but touches no object. *)
#[global] Instance outcome_ret : MRet outcome := @Return.
#[global] Instance outcome_bind : MBind outcome :=
  fun A B k o =>
    match o with
    | Return a => k a
    | Raise e => Raise e
    end.

Definition succeeds {A} (o : outcome A) : Prop := exists a, o = Return a.

(** ** io.BytesIO *)

(** [io.BytesIO()]: a fresh, empty, open buffer. *)
Definition BytesIO_new : M nat :=
  fun h => (Return (length (bufs h)),
            mkHeap (bufs h ++ [mkBytesIO [] 0 false]) (stdout h)).

(** Method calls go through [with_buf]: a closed buffer answers every
    operation with [ValueError].  A reference that is not in the store
    cannot arise in Python (objects live as long as they are referenced);
    it is given the same answer. *)
Definition with_buf {A} (n : nat) (k : BytesIO -> M A) : M A :=
  fun h =>
    match bufs h !! n with
    | Some io => if closed io then raise ValueError h else k io h
    | None => raise ValueError h
    end.

Definition set_buf (n : nat) (io : BytesIO) : M unit :=
  fun h => (Return tt, mkHeap (<[n := io]> (bufs h)) (stdout h)).

(** The bytes of a buffer after writing [b] at offset [p]: a write past
    the end pads with zero bytes, an empty write changes nothing. *)
Definition overwrite (d : bytes) (p : nat) (b : bytes) : bytes :=
  match b with
  | [] => d
  | _ => take p (d ++ replicate (p - length d) x00) ++ b ++ drop (p + length b) d
  end.

Definition BytesIO_write (n : nat) (b : bytes) : M value :=
  with_buf n (fun io =>
    set_buf n (mkBytesIO (overwrite (data io) (pos io) b)
                         (pos io + length b) false);;
    ret (VInt (Z.of_nat (length b)))).

(** [read()] returns everything from the current position to the end. *)
Definition BytesIO_read (n : nat) : M bytes :=
  with_buf n (fun io =>
    set_buf n (mkBytesIO (data io) (pos io `max` length (data io)) false);;
    ret (drop (pos io) (data io))).

Definition BytesIO_seek (n : nat) (p : nat) : M value :=
  with_buf n (fun io =>
    set_buf n (mkBytesIO (data io) p false);;
    ret (VInt (Z.of_nat p))).

(** ** Attribute access on values: [v.write(b)], [v.read()] *)

Definition py_write (v : value) (b : bytes) : M value :=
  match v with
  | VStream Stdout =>
      fun h => (Return (VInt (Z.of_nat (length b))),
                mkHeap (bufs h) (stdout h ++ b))
  | VStream (Buf n) => BytesIO_write n b
  | _ => raise AttributeError
  end.

Definition py_read (v : value) : M bytes :=
  match v with
  | VStream Stdout => raise UnsupportedOperation
  | VStream (Buf n) => BytesIO_read n
  | _ => raise AttributeError
  end.

(** [bytes.rstrip(chars)]: drop the longest suffix made of bytes of
    [chars]. *)
Definition rstrip (chars : bytes) (s : bytes) : bytes :=
  foldr (fun b acc =>
           match acc with
           | [] => if existsb (Byte.eqb b) chars then [] else [b]
           | _ => b :: acc
           end) [] s.

(** ** Callables *)

(** A positional call [f(a1, ..., an)]. *)
Definition callable : Type := list value -> M value.

(** [lambda x, y: body] and [lambda: body]: a call with any other number
    of arguments is a [TypeError], raised before the body runs. *)
Definition lambda2 (body : value -> value -> M value) : callable :=
  fun args =>
    match args with
    | [x; y] => body x y
    | _ => raise TypeError
    end.

Definition lambda0 (body : M value) : callable :=
  fun args =>
    match args with
    | [] => body
    | _ => raise TypeError
    end.

(** ** IoSpec *)

Module IoSpec.

Record t : Type := mk {
  type : string;      (* 'none' | 'stream' | 'iter' | 'bytes' | ... *)
  required_ : bool
}.

(** [IoSpec()], both fields at their defaults. *)
Definition dflt : t := mk "none" true.

Definition required (self : t) : bool :=
  required_ self && negb (type self =? "none").

End IoSpec.

(** [x in (s1, ..., sn)] for strings. *)
Definition str_in (x : string) (l : list string) : bool :=
  existsb (String.eqb x) l.

(** ** Filter *)

Module Filter.

Record t : Type := mk {
  input : IoSpec.t;
  output : IoSpec.t;
  thunk : callable
}.

Definition __call__ (self : t) : M value :=
  if IoSpec.required (input self) then raise RuntimeError
  else if str_in (IoSpec.type (output self)) ["iter"; "bytes"]
          || negb (IoSpec.required (output self))
  then thunk self [VNone; VNone]
  else if IoSpec.type (output self) =? "stream"
  then raise NotImplementedError
  else raise AssertionError.

Definition __iter__ (self : t) : M value :=
  if negb (IoSpec.type (output self) =? "iter") then raise RuntimeError
  else __call__ self.

End Filter.

Definition pipe_by_stream (left right : Filter.t) : callable :=
  lambda2 (fun input output =>
    buf ← BytesIO_new;
    Filter.thunk left [input; VStream (Buf buf)];;
    BytesIO_seek buf 0;;
    Filter.thunk right [VStream (Buf buf); output]).

(** [self | other] *)
Definition Filter__or__ (self other : Filter.t) : outcome Filter.t :=
  if negb (IoSpec.type (Filter.output self) =? IoSpec.type (Filter.input other))
  then Raise RuntimeError
  else if IoSpec.type (Filter.output self) =? "none" then Raise RuntimeError
  else if IoSpec.type (Filter.output self) =? "stream"
  then Return (Filter.mk (Filter.input self) (Filter.output other)
                         (pipe_by_stream self other))
  else if IoSpec.type (Filter.output self) =? "iter"
  then Raise NotImplementedError
  else Raise AssertionError.

(** ** Entry points *)

Definition newline : bytes := [x0a].

Definition slurp_filter : Filter.t :=
  Filter.mk (IoSpec.mk "stream" true) (IoSpec.mk "bytes" true)
    (lambda2 (fun input _ =>
       b ← py_read input;
       ret (VBytes (rstrip newline b)))).

Definition slurp (filter : Filter.t) : M value :=
  match Filter__or__ filter slurp_filter with
  | Return piped => Filter.__call__ piped
  | Raise e => raise e
  end.

Definition to_stdout (filter : Filter.t) : M value :=
  if IoSpec.required (Filter.input filter) then raise RuntimeError
  else if negb (IoSpec.type (Filter.output filter) =? "stream")
  then raise RuntimeError
  else
    Filter.thunk filter [VNone; VStream Stdout];;
    ret VNone.

(** ** Function: the "shell function" adapter *)

Module Argspec.

Record t : Type := mk {
  type : string;
  n : Z
}.

End Argspec.

(** A Python function object: its body, called with positional and
    keyword arguments, and the attributes the decorators may have set on
    it ([None] when [hasattr] is false). *)
Record pyfunc : Type := mkFunc {
  code : list value -> list (string * value) -> M value;
  attr_input : option IoSpec.t;
  attr_output : option IoSpec.t;
  attr_argspecs : option (list Argspec.t)
}.

Module Function.

Record t : Type := mk {
  func : pyfunc;
  input : IoSpec.t;
  output : IoSpec.t;
  argspecs : list Argspec.t
}.

Definition __init__ (func : pyfunc) : t :=
  mk func
     (default IoSpec.dflt (attr_input func))
     (default IoSpec.dflt (attr_output func))
     (default [] (attr_argspecs func)).

Definition pass_input (input : IoSpec.t) : outcome bool :=
  if str_in (IoSpec.type input) ["stream"; "iter"; "bytes"] then Return true
  else if str_in (IoSpec.type input) ["none"] then Return false
  else Raise AssertionError.

Definition pass_output (output : IoSpec.t) : outcome bool :=
  if str_in (IoSpec.type output) ["stream"] then Return true
  else if str_in (IoSpec.type output) ["none"; "iter"; "bytes"] then Return false
  else Raise AssertionError.

Definition __call__ (self : t) (args : list value)
    (kwargs : list (string * value)) : outcome Filter.t :=
  pass_input ← pass_input (input self);
  pass_output ← pass_output (output self);
  let thunk :=
    if pass_input && pass_output then
      lambda2 (fun input output =>
                 code (func self) (input :: output :: args) kwargs)
    else if pass_input then
      lambda2 (fun input _ => code (func self) (input :: args) kwargs)
    else if pass_output then
      lambda2 (fun _ output => code (func self) (output :: args) kwargs)
    else
      lambda0 (code (func self) args kwargs)
  in
  Return (Filter.mk (input self) (output self) thunk).

End Function.

(** The decorators [@output(type=..., required=...)],
    [@input(type=..., required=...)] and [@argument(type=..., n=...)]. *)
Definition output (type : string) (required : bool) (func : pyfunc) : pyfunc :=
  mkFunc (code func) (attr_input func) (Some (IoSpec.mk type required))
         (attr_argspecs func).

Definition input (type : string) (required : bool) (func : pyfunc) : pyfunc :=
  mkFunc (code func) (Some (IoSpec.mk type required)) (attr_output func)
         (attr_argspecs func).

Definition argument (type : string) (n : Z) (func : pyfunc) : pyfunc :=
  mkFunc (code func) (attr_input func) (attr_output func)
         (Some (default [] (attr_argspecs func) ++ [Argspec.mk type n])).

(** ** Stream composition, as the specification words it

    The three steps written out on the store: (1) run the left action
    with a fresh, empty buffer as its sink; (2) rewind that buffer to its
    start; (3) run the right action with the buffer as its source and the
    ultimate sink.  An exception raised in a step ends the run there. *)

Definition fresh_buffer (h : heap) : nat := length (bufs h).

Definition with_fresh_buffer (h : heap) : heap :=
  mkHeap (bufs h ++ [mkBytesIO [] 0 false]) (stdout h).

Definition rewound (buf : nat) (d : bytes) (h : heap) : heap :=
  mkHeap (<[buf := mkBytesIO d 0 false]> (bufs h)) (stdout h).

Definition materializing_pipe (A B : Filter.t) (src snk : value) (h : heap)
    : outcome value * heap :=
  let buf := fresh_buffer h in
  match Filter.thunk A [src; VStream (Buf buf)] (with_fresh_buffer h) with
  | (Raise e, h2) => (Raise e, h2)
  | (Return _, h2) =>
      match BytesIO_seek buf 0 h2 with
      | (Raise e, h3) => (Raise e, h3)
      | (Return _, h3) => Filter.thunk B [VStream (Buf buf); snk] h3
      end
  end.

(** ** Example stages, used to run the definitions on concrete inputs *)

Module Examples.

(** [for c in chunks: output.write(c)] *)
Fixpoint write_all (out : value) (chunks : list bytes) : M value :=
  match chunks with
  | [] => ret VNone
  | c :: cs => py_write out c;; write_all out cs
  end.

(** A source stage: no input, writes [chunks] one after the other to its
    stream output. *)
Definition writer (chunks : list bytes) : Filter.t :=
  Filter.mk IoSpec.dflt (IoSpec.mk "stream" true)
    (lambda2 (fun _ output => write_all output chunks)).

(** [lambda input, _: input.read()] *)
Definition read_all : callable :=
  lambda2 (fun input _ => b ← py_read input; ret (VBytes b)).

(** A stage that reads its whole stream input in one [read()] and returns
    it as a bytes value. *)
Definition reader : Filter.t :=
  Filter.mk (IoSpec.mk "stream" true) (IoSpec.mk "bytes" true) read_all.

(** A stage with a stream on both sides that copies input to output. *)
Definition cat : Filter.t :=
  Filter.mk (IoSpec.mk "stream" true) (IoSpec.mk "stream" true)
    (lambda2 (fun input output => b ← py_read input; py_write output b)).

Definition noop : callable := lambda2 (fun _ _ => ret VNone).

(** Stages whose only interest is their declared kinds. *)
Definition stage (i o : string) : Filter.t :=
  Filter.mk (IoSpec.mk i true) (IoSpec.mk o true) noop.

Definition hello : bytes := [x68; x65; x6c; x6c; x6f].

Definition abc : bytes := [x61; x62; x63].

Definition XY : bytes := [x58; x59].

Definition empty_heap : heap := mkHeap [] [].

(** A function that returns the number of positional arguments it was
    called with, decorated with input kind [i] and output kind [o]. *)
Definition count_args : list value -> list (string * value) -> M value :=
  fun args _ => ret (VInt (Z.of_nat (length args))).

Definition wrapped (i o : string) : Function.t :=
  Function.__init__
    (input i true (output o true (mkFunc count_args None None None))).

(** Wrap, call with [args], and invoke the Filter's thunk the way every
    caller does: with two arguments. *)
Definition invoke (i o : string) (args : list value) : outcome (outcome value) :=
  F ← Function.__call__ (wrapped i o) args [];
  Return (fst (Filter.thunk F [VStream (Buf 0); VStream Stdout] empty_heap)).

End Examples.

(** ** The rest of the module's surface *)

(** [filter(func)] *)
Definition filter (func : pyfunc) : Function.t := Function.__init__ func.

(** Decorators stacked above a [def]: the list gives them in the order in
    which they are applied, the one nearest the [def] first. *)
Definition arguments (specs : list Argspec.t) (func : pyfunc) : pyfunc :=
  foldl (fun f s => argument (Argspec.type s) (Argspec.n s) f) func specs.

(** [io.BytesIO.close()]: allowed on a closed buffer too. *)
Definition BytesIO_close (n : nat) : M value :=
  fun h =>
    match bufs h !! n with
    | Some io =>
        (Return VNone,
         mkHeap (<[n := mkBytesIO (data io) (pos io) true]> (bufs h)) (stdout h))
    | None => raise ValueError h
    end.

Module Stages.

(** [lambda input, output: output.write(g(input.read()))] *)
Definition transform (g : bytes -> bytes) : callable :=
  lambda2 (fun input output => b ← py_read input; py_write output (g b)).

(** A stage that writes [b] and then closes the buffer it was given as
    sink, as a [with output:] block would. *)
Definition write_and_close (b : bytes) : callable :=
  lambda2 (fun _ output =>
    py_write output b;;
    match output with
    | VStream (Buf n) => BytesIO_close n
    | _ => ret VNone
    end).

(** [lambda *_: 1/0]-like: a stage that raises. *)
Definition failing (e : exn) : callable := fun _ => raise e.

(** [for w in words: out.write(w)]; writing anything but bytes is a
    [TypeError]. *)
Fixpoint write_values (out : value) (words : list value) : M value :=
  match words with
  | [] => ret VNone
  | VBytes b :: ws => py_write out b;; write_values out ws
  | _ :: _ => raise TypeError
  end.

(** [def shout(output, *words)]: writes each of its arguments to the sink
    and returns how many there were. *)
Definition shout : pyfunc :=
  mkFunc (fun args _ =>
            match args with
            | out :: words =>
                write_values out words;;
                ret (VInt (Z.of_nat (length words)))
            | [] => raise TypeError
            end)
         None None None.

End Stages.

(** * pysh.subprocess

    The two wrappers around [subprocess].  What they call lies outside
    the sources and is taken as given: the state of the operating system
    [World], the exceptions [Err] of the collaborators, and the three
    functions below. *)

Module Subprocess.

Section Collaborators.

Context {World Err : Type}.

(** Modelled from the spec: [pysh.words.shwords] is not among the
    sources; it builds an ordered sequence of strings from a template
    plus arguments. *)
Variable shwords : string -> list value -> list (string * value) -> Err + list string.

(** [subprocess.check_call(words, stdin=, stdout=, stderr=, cwd=, timeout=)] *)
Variable check_call :
  list string -> value -> value -> value -> value -> value ->
  World -> (Err + unit) * World.

(** [subprocess.check_output(words, stdin=, stderr=, cwd=, timeout=)] *)
Variable check_output :
  list string -> value -> value -> value -> value ->
  World -> (Err + bytes) * World.

Definition check_cmd (fmt : string) (args : list value)
    (_stdin _stdout _stderr _cwd _timeout : value)
    (kwargs : list (string * value)) (w : World) : (Err + value) * World :=
  match shwords fmt args kwargs with
  | inl e => (inl e, w)
  | inr words =>
      match check_call words _stdin _stdout _stderr _cwd _timeout w with
      | (inl e, w') => (inl e, w')
      | (inr _, w') => (inr VNone, w')
      end
  end.

Definition slurp_cmd (fmt : string) (args : list value)
    (_stdin _stderr _cwd _timeout : value)
    (kwargs : list (string * value)) (w : World) : (Err + value) * World :=
  match shwords fmt args kwargs with
  | inl e => (inl e, w)
  | inr words =>
      match check_output words _stdin _stderr _cwd _timeout w with
      | (inl e, w') => (inl e, w')
      | (inr raw_output, w') => (inr (VBytes (rstrip newline raw_output)), w')
      end
  end.

End Collaborators.

End Subprocess.

(** * Properties *)

(** ** Helper facts *)

Lemma str_eqb_eq (a b : string) : a = b -> (a =? b) = true.
Proof. intros ->. apply String.eqb_refl. Qed.

Lemma str_eqb_ne (a b : string) : a <> b -> (a =? b) = false.
Proof. intros H. by apply String.eqb_neq. Qed.

Lemma succeeds_Return {A} (a : A) : succeeds (Return a).
Proof. by exists a. Qed.

Lemma not_succeeds_Raise {A} (e : exn) : ~ succeeds (@Raise A e).
Proof. intros [a Ha]. discriminate Ha. Qed.

(** The four ways [self | other] can end, by the kinds at the joint. *)
Lemma or_mismatch (A B : Filter.t) :
  IoSpec.type (Filter.output A) <> IoSpec.type (Filter.input B) ->
  Filter__or__ A B = Raise RuntimeError.
Proof. intros H. unfold Filter__or__. by rewrite (str_eqb_ne _ _ H). Qed.

Lemma or_kind (A B : Filter.t) (k : string) :
  IoSpec.type (Filter.output A) = k ->
  IoSpec.type (Filter.input B) = k ->
  Filter__or__ A B =
    if k =? "none" then Raise RuntimeError
    else if k =? "stream"
    then Return (Filter.mk (Filter.input A) (Filter.output B)
                           (pipe_by_stream A B))
    else if k =? "iter" then Raise NotImplementedError
    else Raise AssertionError.
Proof.
  intros HA HB. unfold Filter__or__. rewrite HA, HB.
  by rewrite String.eqb_refl.
Qed.

(** ** IoSpec *)

(** C6: an IoSpec of kind 'none' is never required, whatever flag it
    stores; for every other kind [required] is the stored flag. *)
Theorem C6_required_derived (s : IoSpec.t) :
  (IoSpec.type s = "none" -> IoSpec.required s = false) /\
  (IoSpec.type s <> "none" -> IoSpec.required s = IoSpec.required_ s).
Proof.
  unfold IoSpec.required. split; intros H.
  - rewrite H. simpl. apply andb_false_r.
  - rewrite (str_eqb_ne _ _ H). simpl. apply andb_true_r.
Qed.

Lemma C6_required_derived_witness :
  IoSpec.required (IoSpec.mk "none" true) = false /\
  IoSpec.required (IoSpec.mk "bytes" false) = false /\
  IoSpec.required (IoSpec.mk "stream" true) = true.
Proof.
  split; [| split].
  - apply (proj1 (C6_required_derived (IoSpec.mk "none" true))). reflexivity.
  - apply (proj2 (C6_required_derived (IoSpec.mk "bytes" false))). discriminate.
  - apply (proj2 (C6_required_derived (IoSpec.mk "stream" true))). discriminate.
Defined.

(** ** Composition *)

(** C1, as stated, fails: two stages that meet on kind 'iter' have equal,
    non-'none' kinds at the joint, and composing them does not succeed. *)
Lemma C1_counterexample :
  ~ (succeeds (Filter__or__ (Examples.stage "none" "iter")
                            (Examples.stage "iter" "none")) <->
     IoSpec.type (Filter.output (Examples.stage "none" "iter")) =
       IoSpec.type (Filter.input (Examples.stage "iter" "none")) /\
     IoSpec.type (Filter.output (Examples.stage "none" "iter")) <> "none").
Proof.
  intros [_ H].
  apply (@not_succeeds_Raise Filter.t NotImplementedError).
  apply H. split; [reflexivity | discriminate].
Qed.

(** C1 (amended): [A | B] returns a Filter exactly when both kinds at the
    joint are 'stream'; it raises RuntimeError whenever the two kinds
    differ, and when both are 'none'. *)
Theorem C1_compose_succeeds_iff_stream (A B : Filter.t) :
  (succeeds (Filter__or__ A B) <->
     IoSpec.type (Filter.output A) = "stream" /\
     IoSpec.type (Filter.input B) = "stream") /\
  (IoSpec.type (Filter.output A) <> IoSpec.type (Filter.input B) ->
     Filter__or__ A B = Raise RuntimeError) /\
  (IoSpec.type (Filter.output A) = "none" ->
     IoSpec.type (Filter.input B) = "none" ->
     Filter__or__ A B = Raise RuntimeError).
Proof.
  split; [| split].
  - split.
    + destruct (decide (IoSpec.type (Filter.output A)
                        = IoSpec.type (Filter.input B))) as [E | NE].
      * rewrite (or_kind A B _ E eq_refl).
        destruct (String.eqb_spec (IoSpec.type (Filter.input B)) "none");
          [intros H; by apply not_succeeds_Raise in H |].
        destruct (String.eqb_spec (IoSpec.type (Filter.input B)) "stream");
          [intros _; split; congruence |].
        destruct (String.eqb_spec (IoSpec.type (Filter.input B)) "iter");
          intros H; by apply not_succeeds_Raise in H.
      * rewrite (or_mismatch A B NE). intros H.
        by apply not_succeeds_Raise in H.
    + intros [HA HB]. rewrite (or_kind A B "stream" HA HB). simpl.
      apply succeeds_Return.
  - apply or_mismatch.
  - intros HA HB. by rewrite (or_kind A B "none" HA HB).
Qed.

Lemma C1_compose_succeeds_iff_stream_witness :
  succeeds (Filter__or__ (Examples.writer [Examples.hello]) Examples.reader) /\
  Filter__or__ (Examples.stage "none" "stream") (Examples.stage "iter" "none")
    = Raise RuntimeError /\
  Filter__or__ (Examples.stage "none" "none") (Examples.stage "none" "none")
    = Raise RuntimeError.
Proof.
  split; [| split].
  - apply (proj1 (C1_compose_succeeds_iff_stream _ _)).
    split; reflexivity.
  - apply (proj1 (proj2 (C1_compose_succeeds_iff_stream _ _))). discriminate.
  - apply (proj2 (proj2 (C1_compose_succeeds_iff_stream _ _))); reflexivity.
Defined.

(** C9: when [A | B] returns a Filter, its input spec is A's and its
    output spec is B's. *)
Theorem C9_compose_specs (A B F : Filter.t) :
  Filter__or__ A B = Return F ->
  Filter.input F = Filter.input A /\ Filter.output F = Filter.output B.
Proof.
  unfold Filter__or__.
  repeat match goal with
         | |- context [if ?c then _ else _] => destruct c
         end; intros H; inversion H; by subst.
Qed.

Lemma C9_compose_specs_witness :
  Filter.input (Filter.mk IoSpec.dflt (IoSpec.mk "bytes" true)
                  (pipe_by_stream (Examples.writer []) Examples.reader))
    = IoSpec.dflt /\
  Filter.output (Filter.mk IoSpec.dflt (IoSpec.mk "bytes" true)
                   (pipe_by_stream (Examples.writer []) Examples.reader))
    = IoSpec.mk "bytes" true.
Proof.
  apply (C9_compose_specs (Examples.writer []) Examples.reader). reflexivity.
Defined.

(** C10: two stages that meet on kind 'bytes' reach the final
    [assert False] of the pipe operator: composing them raises
    AssertionError, which is neither a returned Filter, nor the usage
    error, nor the not-supported signal. *)
Theorem C10_compose_bytes_asserts (A B : Filter.t) :
  IoSpec.type (Filter.output A) = "bytes" ->
  IoSpec.type (Filter.input B) = "bytes" ->
  Filter__or__ A B = Raise AssertionError /\
  ~ succeeds (Filter__or__ A B) /\
  issubclass AssertionError RuntimeError = false /\
  issubclass AssertionError NotImplementedError = false.
Proof.
  intros HA HB. rewrite (or_kind A B "bytes" HA HB). simpl.
  split; [reflexivity | split; [apply not_succeeds_Raise | by split]].
Qed.

Lemma C10_compose_bytes_asserts_witness :
  Filter__or__ (Examples.stage "none" "bytes") (Examples.stage "bytes" "none")
    = Raise AssertionError.
Proof.
  apply (C10_compose_bytes_asserts (Examples.stage "none" "bytes")
           (Examples.stage "bytes" "none")); reflexivity.
Defined.

(** C5: composing over kind 'iter', and invoking a Filter whose input is
    not required and whose output is a required 'stream', both raise
    NotImplementedError.  A handler for NotImplementedError tells it from
    the usage error: it catches the former and lets a bare RuntimeError
    through. *)
Theorem C5_not_supported_signal :
  (forall A B : Filter.t,
     IoSpec.type (Filter.output A) = "iter" ->
     IoSpec.type (Filter.input B) = "iter" ->
     Filter__or__ A B = Raise NotImplementedError) /\
  (forall (f : Filter.t) (h : heap),
     IoSpec.required (Filter.input f) = false ->
     IoSpec.type (Filter.output f) = "stream" ->
     IoSpec.required (Filter.output f) = true ->
     Filter.__call__ f h = (Raise NotImplementedError, h)) /\
  NotImplementedError <> RuntimeError /\
  issubclass NotImplementedError NotImplementedError = true /\
  issubclass RuntimeError NotImplementedError = false.
Proof.
  split; [| split; [| by repeat split]].
  - intros A B HA HB. by rewrite (or_kind A B "iter" HA HB).
  - intros f h Hin Hty Hreq. unfold Filter.__call__.
    by rewrite Hin, Hty, Hreq.
Qed.

Lemma C5_not_supported_signal_witness :
  Filter__or__ (Examples.stage "none" "iter") (Examples.stage "iter" "none")
    = Raise NotImplementedError /\
  Filter.__call__ (Examples.writer [Examples.hello]) Examples.empty_heap
    = (Raise NotImplementedError, Examples.empty_heap).
Proof.
  split.
  - apply (proj1 C5_not_supported_signal); reflexivity.
  - apply (proj1 (proj2 C5_not_supported_signal)); reflexivity.
Defined.

(** ** Entry points *)

(** C7: slurp of a Filter whose output kind is 'iter' or 'bytes' raises
    RuntimeError; nothing is run and the store is left as it was. *)
Theorem C7_slurp_rejects_non_stream (f : Filter.t) (h : heap) :
  IoSpec.type (Filter.output f) = "iter" \/
  IoSpec.type (Filter.output f) = "bytes" ->
  slurp f h = (Raise RuntimeError, h).
Proof.
  intros H. unfold slurp. rewrite or_mismatch; [done |].
  simpl. destruct H as [-> | ->]; discriminate.
Qed.

Lemma C7_slurp_rejects_non_stream_witness :
  slurp (Examples.stage "none" "iter") Examples.empty_heap
    = (Raise RuntimeError, Examples.empty_heap) /\
  slurp (Examples.stage "none" "bytes") Examples.empty_heap
    = (Raise RuntimeError, Examples.empty_heap).
Proof.
  split.
  - apply (C7_slurp_rejects_non_stream (Examples.stage "none" "iter")).
    left. reflexivity.
  - apply (C7_slurp_rejects_non_stream (Examples.stage "none" "bytes")).
    right. reflexivity.
Defined.

(** C8: to_stdout of a Filter whose input is required, or whose output
    kind is not 'stream', raises RuntimeError.  The equation holds for
    every action [t], also one that would write or raise something else,
    and returns the store, standard output included, unchanged: the
    action is not invoked and nothing is written. *)
Theorem C8_to_stdout_rejects (i o : IoSpec.t) (t : callable) (h : heap) :
  IoSpec.required i = true \/ IoSpec.type o <> "stream" ->
  to_stdout (Filter.mk i o t) h = (Raise RuntimeError, h) /\
  stdout (snd (to_stdout (Filter.mk i o t) h)) = stdout h.
Proof.
  intros H. assert (E : to_stdout (Filter.mk i o t) h = (Raise RuntimeError, h)).
  { unfold to_stdout. simpl. destruct H as [H | H].
    - by rewrite H.
    - rewrite (str_eqb_ne _ _ H). simpl. by destruct (IoSpec.required i). }
  by rewrite E.
Qed.

Lemma C8_to_stdout_rejects_witness :
  to_stdout Examples.cat Examples.empty_heap
    = (Raise RuntimeError, Examples.empty_heap) /\
  to_stdout (Examples.stage "none" "bytes") Examples.empty_heap
    = (Raise RuntimeError, Examples.empty_heap).
Proof.
  split.
  - apply (C8_to_stdout_rejects (IoSpec.mk "stream" true)
             (IoSpec.mk "stream" true) _ Examples.empty_heap).
    left. reflexivity.
  - apply (C8_to_stdout_rejects (IoSpec.mk "none" true)
             (IoSpec.mk "bytes" true) _ Examples.empty_heap).
    right. discriminate.
Defined.

(** ** The Function adapter *)

(** An output kind that is returned rather than written through a sink
    is not 'stream'; it is 'none', or one of the kinds on which a Filter
    invokes its thunk whatever the required flag. *)
Lemma pulled_not_pushed (k : string) :
  str_in k ["none"; "iter"; "bytes"] = true -> str_in k ["stream"] = false.
Proof.
  intros H. unfold str_in. simpl.
  destruct (String.eqb_spec k "stream") as [-> | _]; [discriminate H | done].
Qed.

Lemma pulled_cases (k : string) :
  str_in k ["none"; "iter"; "bytes"] = true ->
  k = "none" \/ str_in k ["iter"; "bytes"] = true.
Proof.
  unfold str_in. simpl.
  destruct (String.eqb_spec k "none") as [-> | _]; [by left | by right].
Qed.

(** Three of the four calling shapes: the thunk takes (input, output) and
    hands the wrapped function the handles it declared, then the caller's
    arguments. *)
Lemma call_source_and_sink (self : Function.t) args kwargs :
  str_in (IoSpec.type (Function.input self)) ["stream"; "iter"; "bytes"] = true ->
  IoSpec.type (Function.output self) = "stream" ->
  exists thunk,
    Function.__call__ self args kwargs =
      Return (Filter.mk (Function.input self) (Function.output self) thunk) /\
    forall src snk,
      thunk [src; snk] = code (Function.func self) (src :: snk :: args) kwargs.
Proof.
  intros Hin Hout. unfold Function.__call__, Function.pass_input,
    Function.pass_output. rewrite Hin, Hout. simpl. eauto.
Qed.

Lemma call_source_only (self : Function.t) args kwargs :
  str_in (IoSpec.type (Function.input self)) ["stream"; "iter"; "bytes"] = true ->
  str_in (IoSpec.type (Function.output self)) ["none"; "iter"; "bytes"] = true ->
  exists thunk,
    Function.__call__ self args kwargs =
      Return (Filter.mk (Function.input self) (Function.output self) thunk) /\
    forall src snk,
      thunk [src; snk] = code (Function.func self) (src :: args) kwargs.
Proof.
  intros Hin Hout. unfold Function.__call__, Function.pass_input,
    Function.pass_output. rewrite Hin, Hout.
  rewrite (pulled_not_pushed _ Hout). simpl. eauto.
Qed.

Lemma call_sink_only (self : Function.t) args kwargs :
  IoSpec.type (Function.input self) = "none" ->
  IoSpec.type (Function.output self) = "stream" ->
  exists thunk,
    Function.__call__ self args kwargs =
      Return (Filter.mk (Function.input self) (Function.output self) thunk) /\
    forall src snk,
      thunk [src; snk] = code (Function.func self) (snk :: args) kwargs.
Proof.
  intros Hin Hout. unfold Function.__call__, Function.pass_input,
    Function.pass_output. rewrite Hin, Hout. simpl. eauto.
Qed.

(** C2, the fourth shape: with input kind 'none' and output kind in
    {'none', 'iter', 'bytes'} the thunk is a lambda without parameters.
    It reaches the wrapped function only when called with no argument;
    the two-argument call that every caller of a thunk makes, the
    Filter's own invocation among them, raises TypeError before the
    wrapped function is entered. *)
Theorem C2_neither_shape_type_error (self : Function.t) args kwargs (h : heap) :
  IoSpec.type (Function.input self) = "none" ->
  str_in (IoSpec.type (Function.output self)) ["none"; "iter"; "bytes"] = true ->
  exists thunk,
    Function.__call__ self args kwargs =
      Return (Filter.mk (Function.input self) (Function.output self) thunk) /\
    thunk [] = code (Function.func self) args kwargs /\
    (forall src snk, thunk [src; snk] h = (Raise TypeError, h)) /\
    Filter.__call__
      (Filter.mk (Function.input self) (Function.output self) thunk) h
      = (Raise TypeError, h).
Proof.
  intros Hin Hout. unfold Function.__call__, Function.pass_input,
    Function.pass_output. rewrite Hin.
  rewrite (pulled_not_pushed _ Hout), Hout. simpl.
  eexists. split; [reflexivity |].
  split; [reflexivity |]. split; [reflexivity |].
  unfold Filter.__call__, IoSpec.required.
  cbn [Filter.input Filter.output Filter.thunk]. rewrite Hin.
  cbn [String.eqb Ascii.eqb Bool.eqb negb]. rewrite andb_false_r.
  destruct (pulled_cases _ Hout) as [E | E]; rewrite E; [| reflexivity].
  cbn [String.eqb Ascii.eqb Bool.eqb negb]. rewrite andb_false_r.
  by rewrite orb_true_r.
Qed.

Lemma C2_neither_shape_type_error_witness :
  exists thunk,
    Function.__call__
      (Function.__init__ (mkFunc (fun _ _ => ret (VBytes Examples.hello))
                                 None None None)) [] []
      = Return (Filter.mk IoSpec.dflt IoSpec.dflt thunk) /\
    Filter.__call__ (Filter.mk IoSpec.dflt IoSpec.dflt thunk) Examples.empty_heap
      = (Raise TypeError, Examples.empty_heap).
Proof.
  destruct (C2_neither_shape_type_error
              (Function.__init__ (mkFunc (fun _ _ => ret (VBytes Examples.hello))
                                         None None None))
              [] [] Examples.empty_heap eq_refl eq_refl)
    as [thunk [H1 [_ [_ H2]]]].
  exists thunk. split; [exact H1 | exact H2].
Defined.

(** ** Buffers *)

Lemma overwrite_end (d b : bytes) : overwrite d (length d) b = d ++ b.
Proof.
  destruct b as [| x b]; [by rewrite app_nil_r |].
  unfold overwrite. rewrite Nat.sub_diag. simpl replicate.
  rewrite app_nil_r, firstn_all, drop_ge by (simpl; lia).
  by rewrite app_nil_r.
Qed.

Lemma fresh_buffer_unused (h : heap) : bufs h !! fresh_buffer h = None.
Proof. by apply lookup_ge_None. Qed.

Lemma fresh_buffer_empty (h : heap) :
  bufs (with_fresh_buffer h) !! fresh_buffer h = Some (mkBytesIO [] 0 false).
Proof. unfold with_fresh_buffer, fresh_buffer. simpl. apply list_lookup_middle. done. Qed.

Lemma BytesIO_new_fresh (h : heap) :
  BytesIO_new h = (Return (fresh_buffer h), with_fresh_buffer h).
Proof. reflexivity. Qed.

(** A write at the end of an open buffer appends. *)
Lemma write_at_end (n : nat) (b d : bytes) (h : heap) :
  bufs h !! n = Some (mkBytesIO d (length d) false) ->
  BytesIO_write n b h =
    (Return (VInt (Z.of_nat (length b))),
     mkHeap (<[n := mkBytesIO (d ++ b) (length (d ++ b)) false]> (bufs h))
            (stdout h)).
Proof.
  intros H. unfold BytesIO_write, with_buf. rewrite H. simpl.
  unfold mbind, M_bind, bind, set_buf, ret. simpl.
  by rewrite overwrite_end, length_app.
Qed.

Lemma seek_start (n : nat) (d : bytes) (p : nat) (h : heap) :
  bufs h !! n = Some (mkBytesIO d p false) ->
  BytesIO_seek n 0 h = (Return (VInt 0), rewound n d h).
Proof. intros H. unfold BytesIO_seek, with_buf. by rewrite H. Qed.

Lemma rewound_lookup (n : nat) (d : bytes) (io : BytesIO) (h : heap) :
  bufs h !! n = Some io ->
  bufs (rewound n d h) !! n = Some (mkBytesIO d 0 false).
Proof.
  intros H. unfold rewound. simpl. apply list_lookup_insert_eq.
  by apply lookup_lt_Some in H.
Qed.

(** One [read()] from the start of an open buffer returns all of it. *)
Lemma read_from_start (n : nat) (d : bytes) (h : heap) :
  bufs h !! n = Some (mkBytesIO d 0 false) ->
  BytesIO_read n h =
    (Return d,
     mkHeap (<[n := mkBytesIO d (length d) false]> (bufs h)) (stdout h)).
Proof. intros H. unfold BytesIO_read, with_buf. by rewrite H. Qed.

(** Writing chunks one after the other to a buffer positioned at its end
    leaves their concatenation behind. *)
Lemma write_all_at_end (n : nat) (chunks : list bytes) :
  forall (d : bytes) (h : heap),
    bufs h !! n = Some (mkBytesIO d (length d) false) ->
    exists h',
      Examples.write_all (VStream (Buf n)) chunks h = (Return VNone, h') /\
      bufs h' !! n =
        Some (mkBytesIO (d ++ concat chunks) (length (d ++ concat chunks)) false) /\
      stdout h' = stdout h.
Proof.
  induction chunks as [| c cs IH]; intros d h H.
  - exists h. simpl. by rewrite app_nil_r.
  - simpl. unfold mbind, M_bind, bind. rewrite (write_at_end n c d h H).
    destruct (IH (d ++ c) (mkHeap (<[n := mkBytesIO (d ++ c) (length (d ++ c)) false]>
                                     (bufs h)) (stdout h))) as [h' [E [L S]]].
    { simpl. apply list_lookup_insert_eq. by apply lookup_lt_Some in H. }
    exists h'. rewrite E. split; [done |]. by rewrite (assoc_L (++)).
Qed.

(** ** rstrip *)

Lemma rstrip_cons (chars : bytes) (b : byte) (s : bytes) :
  rstrip chars (b :: s) =
    match rstrip chars s with
    | [] => if existsb (Byte.eqb b) chars then [] else [b]
    | _ => b :: rstrip chars s
    end.
Proof. reflexivity. Qed.

Lemma rstrip_all_stripped (chars : bytes) (x : byte) (k : nat) :
  existsb (Byte.eqb x) chars = true -> rstrip chars (replicate k x) = [].
Proof.
  intros H. induction k as [| k IH]; [done |].
  simpl replicate. by rewrite rstrip_cons, IH, H.
Qed.

Lemma rstrip_app_stripped (chars s : bytes) (x : byte) (k : nat) :
  existsb (Byte.eqb x) chars = true ->
  rstrip chars (s ++ replicate k x) = rstrip chars s.
Proof.
  intros H. induction s as [| b s IH].
  - by apply rstrip_all_stripped.
  - rewrite <- app_comm_cons. by rewrite !rstrip_cons, IH.
Qed.

Lemma rstrip_newline_id (s : bytes) :
  last s <> Some x0a -> rstrip newline s = s.
Proof.
  induction s as [| b s IH]; [done |].
  intros H. rewrite rstrip_cons.
  destruct s as [| c s].
  - simpl. destruct (Byte.eqb b x0a) eqn:E; [| done].
    apply Byte.byte_dec_bl in E. by subst.
  - rewrite IH; [done |]. by rewrite last_cons_cons in H.
Qed.

(** All trailing newlines go, and nothing else. *)
Lemma rstrip_newlines (base : bytes) (k : nat) :
  last base <> Some x0a ->
  rstrip newline (base ++ replicate k x0a) = base.
Proof.
  intros H. rewrite rstrip_app_stripped by done. by apply rstrip_newline_id.
Qed.

(** ** Stream composition *)

Lemma pipe_by_stream_steps (A B : Filter.t) (src snk : value) (h : heap) :
  pipe_by_stream A B [src; snk] h = materializing_pipe A B src snk h.
Proof.
  unfold pipe_by_stream, materializing_pipe, lambda2.
  unfold mbind, M_bind, bind. rewrite BytesIO_new_fresh.
  destruct (Filter.thunk A _ _) as [[v | e] h2]; [| done].
  by destruct (BytesIO_seek _ _ _) as [[w | e] h3].
Qed.

(** Once the left action has returned, the right action starts on a
    store in which the buffer holds what the left action left in it, read
    position at the start. *)
Lemma pipe_by_stream_materializes (A B : Filter.t) (src snk : value)
    (h h2 : heap) (v : value) (d : bytes) (p : nat) :
  Filter.thunk A [src; VStream (Buf (fresh_buffer h))] (with_fresh_buffer h)
    = (Return v, h2) ->
  bufs h2 !! fresh_buffer h = Some (mkBytesIO d p false) ->
  pipe_by_stream A B [src; snk] h =
    Filter.thunk B [VStream (Buf (fresh_buffer h)); snk]
                 (rewound (fresh_buffer h) d h2).
Proof.
  intros HA Hbuf. rewrite pipe_by_stream_steps. unfold materializing_pipe.
  by rewrite HA, (seek_start _ d p h2 Hbuf).
Qed.

Lemma read_all_rewound (n : nat) (d : bytes) (io : BytesIO) (snk : value)
    (h : heap) :
  bufs h !! n = Some io ->
  fst (Examples.read_all [VStream (Buf n); snk] (rewound n d h))
    = Return (VBytes d).
Proof.
  intros H. unfold Examples.read_all, lambda2, py_read.
  unfold mbind, M_bind, bind.
  by rewrite (read_from_start n d _ (rewound_lookup n d io h H)).
Qed.

(** C3: over kind 'stream', [A | B] returns a Filter whose action is
    [pipe_by_stream A B].  Run on any source, sink and store, that action
    allocates a buffer no earlier reference can name, runs A's action to
    its end with the empty buffer as sink, rewinds the buffer and only
    then runs B's action with the buffer as source.  So when A's action
    has returned leaving bytes [d] in the buffer, B's action starts on a
    store where one [read()] of its source yields all of [d]; and when
    A's action is "write b1, write b2, return" and B's is "return
    input.read()", the composed action returns b1 ++ b2. *)
Theorem C3_stream_composition_materializes (A B : Filter.t)
    (src snk : value) (h : heap) :
  IoSpec.type (Filter.output A) = "stream" ->
  IoSpec.type (Filter.input B) = "stream" ->
  Filter__or__ A B =
    Return (Filter.mk (Filter.input A) (Filter.output B) (pipe_by_stream A B)) /\
  bufs h !! fresh_buffer h = None /\
  bufs (with_fresh_buffer h) !! fresh_buffer h = Some (mkBytesIO [] 0 false) /\
  pipe_by_stream A B [src; snk] h = materializing_pipe A B src snk h /\
  (forall (v : value) (h2 : heap) (d : bytes) (p : nat),
     Filter.thunk A [src; VStream (Buf (fresh_buffer h))] (with_fresh_buffer h)
       = (Return v, h2) ->
     bufs h2 !! fresh_buffer h = Some (mkBytesIO d p false) ->
     pipe_by_stream A B [src; snk] h =
       Filter.thunk B [VStream (Buf (fresh_buffer h)); snk]
                    (rewound (fresh_buffer h) d h2) /\
     fst (py_read (VStream (Buf (fresh_buffer h)))
                  (rewound (fresh_buffer h) d h2)) = Return d) /\
  (forall (b1 b2 : bytes) (v : value),
     (forall out : value,
        Filter.thunk A [src; out] = (py_write out b1;; py_write out b2;; ret v)) ->
     Filter.thunk B = Examples.read_all ->
     fst (pipe_by_stream A B [src; snk] h) = Return (VBytes (b1 ++ b2))).
Proof.
  intros HA HB.
  split; [by rewrite (or_kind A B "stream" HA HB) |].
  split; [apply fresh_buffer_unused |].
  split; [apply fresh_buffer_empty |].
  split; [apply pipe_by_stream_steps |].
  split.
  - intros v h2 d p Hrun Hbuf.
    split; [by apply (pipe_by_stream_materializes A B src snk h h2 v d p) |].
    unfold py_read.
    by rewrite (read_from_start _ d _ (rewound_lookup _ d _ h2 Hbuf)).
  - intros b1 b2 v Hwrites Hreads.
    destruct (write_all_at_end (fresh_buffer h) [b1; b2] [] (with_fresh_buffer h)
                (fresh_buffer_empty h)) as [h2 [Hrun [Hbuf _]]].
    simpl in Hbuf. rewrite app_nil_r in Hbuf.
    assert (Hrun' : Filter.thunk A [src; VStream (Buf (fresh_buffer h))]
                      (with_fresh_buffer h) = (Return v, h2)).
    { rewrite Hwrites. simpl in Hrun. unfold mbind, M_bind, bind, ret in *.
      cbn [py_write].
      destruct (BytesIO_write _ b1 _) as [[w1 | e1] h1]; [| done].
      destruct (BytesIO_write _ b2 _) as [[w2 | e2] h1']; [| done].
      by inversion Hrun. }
    rewrite (pipe_by_stream_materializes A B src snk h h2 v _ _ Hrun' Hbuf).
    rewrite Hreads. by apply read_all_rewound with (io := mkBytesIO (b1 ++ b2) (length (b1 ++ b2)) false).
Qed.

Lemma C3_stream_composition_materializes_witness :
  fst (pipe_by_stream (Examples.writer [Examples.hello; newline]) Examples.reader
         [VNone; VNone] Examples.empty_heap)
    = Return (VBytes (Examples.hello ++ newline)).
Proof.
  destruct (C3_stream_composition_materializes
              (Examples.writer [Examples.hello; newline]) Examples.reader
              VNone VNone Examples.empty_heap eq_refl eq_refl)
    as (_ & _ & _ & _ & _ & H).
  apply (H Examples.hello newline VNone).
  - intros out. reflexivity.
  - reflexivity.
Defined.

(** C4: slurp of a Filter with output kind 'stream' and an input that is
    not required, whose action leaves [base] followed by any number of
    newline bytes in its sink, returns [base]: every trailing newline is
    stripped, not only the last. *)
Theorem C4_slurp_strips_all_newlines (f : Filter.t) (h h2 : heap)
    (base : bytes) (k : nat) (v : value) (p : nat) :
  IoSpec.type (Filter.output f) = "stream" ->
  IoSpec.required (Filter.input f) = false ->
  last base <> Some x0a ->
  Filter.thunk f [VNone; VStream (Buf (fresh_buffer h))] (with_fresh_buffer h)
    = (Return v, h2) ->
  bufs h2 !! fresh_buffer h = Some (mkBytesIO (base ++ replicate k x0a) p false) ->
  fst (slurp f h) = Return (VBytes base).
Proof.
  intros Hout Hin Hlast Hrun Hbuf. unfold slurp.
  rewrite (or_kind f slurp_filter "stream" Hout eq_refl).
  change (fst (Filter.__call__
                 (Filter.mk (Filter.input f) (Filter.output slurp_filter)
                            (pipe_by_stream f slurp_filter)) h)
          = Return (VBytes base)).
  unfold Filter.__call__. cbn [Filter.input Filter.output Filter.thunk].
  rewrite Hin.
  change (fst (pipe_by_stream f slurp_filter [VNone; VNone] h)
          = Return (VBytes base)).
  rewrite (pipe_by_stream_materializes f slurp_filter VNone VNone h h2 v _ p
             Hrun Hbuf).
  unfold slurp_filter, lambda2, py_read. cbn [Filter.thunk].
  unfold mbind, M_bind, bind.
  rewrite (read_from_start _ _ _ (rewound_lookup _ _ _ h2 Hbuf)).
  unfold ret. cbn [fst]. by rewrite rstrip_newlines.
Qed.

Lemma C4_slurp_strips_all_newlines_witness :
  fst (slurp (Examples.writer [Examples.hello ++ [x0a; x0a; x0a]])
             Examples.empty_heap)
    = Return (VBytes Examples.hello).
Proof.
  apply (C4_slurp_strips_all_newlines
           (Examples.writer [Examples.hello ++ [x0a; x0a; x0a]])
           Examples.empty_heap
           (mkHeap [mkBytesIO (Examples.hello ++ [x0a; x0a; x0a]) 8 false] [])
           Examples.hello 3 VNone 8).
  - reflexivity.
  - reflexivity.
  - discriminate.
  - reflexivity.
  - reflexivity.
Defined.

(** ** Runs on concrete inputs *)

Section Runs.

Import Examples.

(** [io.BytesIO] as CPython has it: a write in the middle overwrites, a
    write past the end pads with zeros, an empty write does nothing. *)
Example overwrite_middle : overwrite (abc ++ abc) 2 XY = [x61; x62; x58; x59; x62; x63].
Proof. reflexivity. Qed.

Example overwrite_past_end : overwrite [] 3 [x61] = [x00; x00; x00; x61].
Proof. reflexivity. Qed.

Example overwrite_nothing : overwrite abc 7 [] = abc.
Proof. reflexivity. Qed.

Example rstrip_keeps_inner_newlines :
  rstrip newline ([x61; x0a; x0a; x62] ++ [x0a; x0a]) = [x61; x0a; x0a; x62].
Proof. reflexivity. Qed.

Example rstrip_only_newlines : rstrip newline [x0a; x0a] = [].
Proof. reflexivity. Qed.

(** A handler for RuntimeError would catch the not-supported signal as
    well: the two are told apart by a NotImplementedError handler. *)
Example not_supported_is_a_RuntimeError :
  issubclass NotImplementedError RuntimeError = true.
Proof. reflexivity. Qed.

Example to_stdout_hello :
  to_stdout (writer [hello; newline]) empty_heap
    = (Return VNone, mkHeap [] (hello ++ newline)).
Proof. reflexivity. Qed.

(** [writer | cat | slurp_filter], run from an empty store: two buffers
    are allocated, both end up fully read. *)
Example slurp_through_cat :
  (piped ← Filter__or__ (writer [hello; newline; newline]) cat;
   Return (slurp piped empty_heap))
    = Return (Return (VBytes hello),
              mkHeap [mkBytesIO (hello ++ [x0a; x0a]) 7 false;
                      mkBytesIO (hello ++ [x0a; x0a]) 7 false] []).
Proof. reflexivity. Qed.

(** A stage that still needs input cannot be slurped on its own. *)
Example slurp_needs_no_input :
  slurp cat empty_heap = (Raise RuntimeError, empty_heap).
Proof. reflexivity. Qed.

(** The four calling shapes of the Function adapter, each invoked with
    two handles and one caller-supplied argument. *)
Example shape_source_and_sink :
  invoke "stream" "stream" [VStr "x"] = Return (Return (VInt 3)).
Proof. reflexivity. Qed.

Example shape_source_only :
  invoke "bytes" "iter" [VStr "x"] = Return (Return (VInt 2)).
Proof. reflexivity. Qed.

Example shape_sink_only :
  invoke "none" "stream" [VStr "x"] = Return (Return (VInt 2)).
Proof. reflexivity. Qed.

Example shape_neither :
  invoke "none" "bytes" [VStr "x"] = Return (Raise TypeError).
Proof. reflexivity. Qed.

Example unknown_kind_asserts :
  invoke "socket" "stream" [] = Raise AssertionError.
Proof. reflexivity. Qed.

End Runs.

(** * Further properties of the module *)

(** ** Composition, continued *)

Lemma or_Return_inv (A B F : Filter.t) :
  Filter__or__ A B = Return F ->
  IoSpec.type (Filter.output A) = "stream" /\
  IoSpec.type (Filter.input B) = "stream" /\
  F = Filter.mk (Filter.input A) (Filter.output B) (pipe_by_stream A B).
Proof.
  unfold Filter__or__.
  destruct (String.eqb_spec (IoSpec.type (Filter.output A))
                            (IoSpec.type (Filter.input B))) as [E | NE];
    [| discriminate].
  cbn [negb].
  destruct (String.eqb_spec (IoSpec.type (Filter.output A)) "none");
    [discriminate |].
  destruct (String.eqb_spec (IoSpec.type (Filter.output A)) "stream") as [S | ?].
  - intros [= <-]. by rewrite <- E, S.
  - by destruct (IoSpec.type (Filter.output A) =? "iter").
Qed.

Lemma or_stream (A B : Filter.t) :
  IoSpec.type (Filter.output A) = "stream" ->
  IoSpec.type (Filter.input B) = "stream" ->
  Filter__or__ A B =
    Return (Filter.mk (Filter.input A) (Filter.output B) (pipe_by_stream A B)).
Proof. intros HA HB. by rewrite (or_kind A B "stream" HA HB). Qed.

(** X1: a three-stage pipeline can be bracketed either way.  [(A | B) | C]
    returns a Filter exactly when [A | (B | C)] does, namely when all four
    kinds at the two joints are 'stream', and both results carry A's input
    spec and C's output spec. *)
Theorem pipeline_brackets (A B C : Filter.t) :
  let left := AB ← Filter__or__ A B; Filter__or__ AB C in
  let right := BC ← Filter__or__ B C; Filter__or__ A BC in
  let all_stream :=
    IoSpec.type (Filter.output A) = "stream" /\
    IoSpec.type (Filter.input B) = "stream" /\
    IoSpec.type (Filter.output B) = "stream" /\
    IoSpec.type (Filter.input C) = "stream" in
  (succeeds left <-> all_stream) /\
  (succeeds right <-> all_stream) /\
  (forall L R : Filter.t,
     left = Return L -> right = Return R ->
     Filter.input L = Filter.input A /\ Filter.input R = Filter.input A /\
     Filter.output L = Filter.output C /\ Filter.output R = Filter.output C).
Proof.
  cbn zeta. unfold mbind, outcome_bind. split; [| split].
  - split.
    + intros [L HL]. destruct (Filter__or__ A B) as [AB |] eqn:E1; [| done].
      destruct (or_Return_inv _ _ _ E1) as (? & ? & ->).
      destruct (or_Return_inv _ _ _ HL) as (? & ? & _). done.
    + intros (HA & HB & HB' & HC). rewrite (or_stream A B HA HB).
      rewrite or_stream by done. apply succeeds_Return.
  - split.
    + intros [R HR]. destruct (Filter__or__ B C) as [BC |] eqn:E1; [| done].
      destruct (or_Return_inv _ _ _ E1) as (? & ? & ->).
      destruct (or_Return_inv _ _ _ HR) as (? & ? & _). done.
    + intros (HA & HB & HB' & HC). rewrite (or_stream B C HB' HC).
      rewrite or_stream by done. apply succeeds_Return.
  - intros L R HL HR.
    destruct (Filter__or__ A B) as [AB |] eqn:E1; [| done].
    destruct (Filter__or__ B C) as [BC |] eqn:E2; [| done].
    destruct (or_Return_inv _ _ _ E1) as (_ & _ & ->).
    destruct (or_Return_inv _ _ _ E2) as (_ & _ & ->).
    destruct (or_Return_inv _ _ _ HL) as (_ & _ & ->).
    destruct (or_Return_inv _ _ _ HR) as (_ & _ & ->). done.
Qed.

Lemma pipeline_brackets_witness :
  succeeds (AB ← Filter__or__ (Examples.writer []) Examples.cat;
            Filter__or__ AB Examples.reader) /\
  succeeds (BC ← Filter__or__ Examples.cat Examples.reader;
            Filter__or__ (Examples.writer []) BC).
Proof.
  destruct (pipeline_brackets (Examples.writer []) Examples.cat Examples.reader)
    as (H1 & H2 & _).
  split; [apply H1 | apply H2]; by repeat split.
Defined.



(** X3: iterating a Filter either raises RuntimeError without entering
    the action and without touching the store (output kind other than
    'iter', or input still required), or is the action applied to
    (None, None).  The not-supported and assertion branches of the call
    are out of its reach. *)
Theorem iter_runs_or_rejects (f : Filter.t) (h : heap) :
  (IoSpec.type (Filter.output f) = "iter" ->
   IoSpec.required (Filter.input f) = false ->
   Filter.__iter__ f h = Filter.thunk f [VNone; VNone] h) /\
  (IoSpec.type (Filter.output f) <> "iter" \/
   IoSpec.required (Filter.input f) = true ->
   Filter.__iter__ f h = (Raise RuntimeError, h)).
Proof.
  unfold Filter.__iter__, Filter.__call__. split.
  - intros Hout Hin. by rewrite Hout, Hin.
  - intros [Hout | Hin].
    + by rewrite (str_eqb_ne _ _ Hout).
    + rewrite Hin. by destruct (negb _).
Qed.

Lemma iter_runs_or_rejects_witness :
  Filter.__iter__ (Examples.stage "none" "iter") Examples.empty_heap
    = (Return VNone, Examples.empty_heap) /\
  Filter.__iter__ Examples.reader Examples.empty_heap
    = (Raise RuntimeError, Examples.empty_heap).
Proof.
  split.
  - apply (proj1 (iter_runs_or_rejects (Examples.stage "none" "iter")
                    Examples.empty_heap)); reflexivity.
  - apply (proj2 (iter_runs_or_rejects Examples.reader Examples.empty_heap)).
    left. discriminate.
Defined.

(** ** Failure inside a stream pipe *)

(** X4: when the left action raises, the composed action raises the same
    exception and hands back the store as the left action left it; this
    holds for every right stage, whose action is not entered. *)
Theorem pipe_left_raises (A B : Filter.t) (src snk : value) (h h2 : heap)
    (e : exn) :
  Filter.thunk A [src; VStream (Buf (fresh_buffer h))] (with_fresh_buffer h)
    = (Raise e, h2) ->
  pipe_by_stream A B [src; snk] h = (Raise e, h2) /\
  pipe_by_stream A (Filter.mk (Filter.input B) (Filter.output B)
                              (Stages.failing AssertionError)) [src; snk] h
    = (Raise e, h2).
Proof.
  intros H. rewrite !pipe_by_stream_steps. unfold materializing_pipe.
  by rewrite H.
Qed.

Lemma pipe_left_raises_witness :
  pipe_by_stream (Filter.mk IoSpec.dflt (IoSpec.mk "stream" true)
                            (Stages.failing ValueError))
                 Examples.reader [VNone; VNone] Examples.empty_heap
    = (Raise ValueError, with_fresh_buffer Examples.empty_heap).
Proof.
  apply (pipe_left_raises
           (Filter.mk IoSpec.dflt (IoSpec.mk "stream" true)
                      (Stages.failing ValueError))
           Examples.reader VNone VNone Examples.empty_heap
           (with_fresh_buffer Examples.empty_heap) ValueError).
  reflexivity.
Defined.

(** X5: when the left action returns but has closed the buffer it was
    given, the rewind fails: the composed action raises ValueError and
    the right action is not entered. *)
Theorem pipe_left_closes_sink (A B : Filter.t) (src snk : value)
    (h h2 : heap) (v : value) (d : bytes) (p : nat) :
  Filter.thunk A [src; VStream (Buf (fresh_buffer h))] (with_fresh_buffer h)
    = (Return v, h2) ->
  bufs h2 !! fresh_buffer h = Some (mkBytesIO d p true) ->
  pipe_by_stream A B [src; snk] h = (Raise ValueError, h2).
Proof.
  intros HA Hbuf. rewrite pipe_by_stream_steps. unfold materializing_pipe.
  rewrite HA. unfold BytesIO_seek, with_buf. by rewrite Hbuf.
Qed.

Lemma pipe_left_closes_sink_witness :
  pipe_by_stream (Filter.mk IoSpec.dflt (IoSpec.mk "stream" true)
                            (Stages.write_and_close Examples.hello))
                 Examples.reader [VNone; VNone] Examples.empty_heap
    = (Raise ValueError, mkHeap [mkBytesIO Examples.hello 5 true] []).
Proof.
  apply (pipe_left_closes_sink
           (Filter.mk IoSpec.dflt (IoSpec.mk "stream" true)
                      (Stages.write_and_close Examples.hello))
           Examples.reader VNone VNone Examples.empty_heap
           (mkHeap [mkBytesIO Examples.hello 5 true] [])
           VNone Examples.hello 5); reflexivity.
Defined.

(** ** Entry points, continued *)

Lemma rstrip_newline_decompose (d : bytes) :
  exists k : nat, d = rstrip newline d ++ replicate k x0a.
Proof.
  induction d as [| b s [k IH]]; [by exists 0 |].
  rewrite rstrip_cons. destruct (rstrip newline s) as [| c r] eqn:E.
  - simpl in IH. subst s. simpl existsb.
    destruct (Byte.eqb b x0a) eqn:Eb.
    + apply Byte.byte_dec_bl in Eb. subst b. by exists (S k).
    + by exists k.
  - exists k. by rewrite IH at 1.
Qed.

Lemma rstrip_newline_no_trailing (d : bytes) :
  last (rstrip newline d) <> Some x0a.
Proof.
  induction d as [| b s IH]; [done |].
  rewrite rstrip_cons. destruct (rstrip newline s) as [| c r] eqn:E.
  - simpl existsb. destruct (Byte.eqb b x0a) eqn:Eb; [done |].
    simpl. intros [= ->]. by rewrite Byte.byte_dec_lb in Eb.
  - by rewrite last_cons_cons.
Qed.

Lemma heap_eta (h : heap) : mkHeap (bufs h) (stdout h) = h.
Proof. by destruct h. Qed.

Lemma insert_fresh (l : list BytesIO) (x y : BytesIO) :
  <[length l := x]> (l ++ [y]) = l ++ [x].
Proof.
  rewrite insert_app_r_alt by lia. by rewrite Nat.sub_diag.
Qed.

(** What slurp computes and leaves behind, once the stage has returned
    with [d] in its sink. *)
Lemma slurp_run (f : Filter.t) (h h2 : heap) (v : value) (d : bytes) (p : nat) :
  IoSpec.type (Filter.output f) = "stream" ->
  IoSpec.required (Filter.input f) = false ->
  Filter.thunk f [VNone; VStream (Buf (fresh_buffer h))] (with_fresh_buffer h)
    = (Return v, h2) ->
  bufs h2 !! fresh_buffer h = Some (mkBytesIO d p false) ->
  slurp f h =
    (Return (VBytes (rstrip newline d)),
     mkHeap (<[fresh_buffer h := mkBytesIO d (length d) false]> (bufs h2))
            (stdout h2)).
Proof.
  intros Hout Hin Hrun Hbuf. unfold slurp. rewrite (or_stream f slurp_filter Hout eq_refl).
  unfold Filter.__call__. cbn [Filter.input Filter.output Filter.thunk].
  rewrite Hin.
  match goal with
  | |- _ = ?rhs =>
      change (pipe_by_stream f slurp_filter [VNone; VNone] h = rhs)
  end.
  rewrite (pipe_by_stream_materializes f slurp_filter VNone VNone h h2 v _ p
             Hrun Hbuf).
  unfold slurp_filter, lambda2, py_read. cbn [Filter.thunk].
  unfold mbind, M_bind, bind.
  rewrite (read_from_start _ _ _ (rewound_lookup _ _ _ h2 Hbuf)).
  unfold ret, rewound. cbn [bufs stdout]. by rewrite list_insert_insert_eq.
Qed.

Lemma write_all_stdout (chunks : list bytes) (h : heap) :
  Examples.write_all (VStream Stdout) chunks h
    = (Return VNone, mkHeap (bufs h) (stdout h ++ concat chunks)).
Proof.
  revert h. induction chunks as [| c cs IH]; intros h.
  - simpl. unfold ret. by rewrite app_nil_r, heap_eta.
  - simpl. unfold mbind, M_bind, bind. rewrite IH. simpl.
    by rewrite (assoc_L (++)).
Qed.

Lemma write_all_buffer (n : nat) (chunks : list bytes) (d : bytes) (h : heap) :
  bufs h !! n = Some (mkBytesIO d (length d) false) ->
  Examples.write_all (VStream (Buf n)) chunks h
    = (Return VNone,
       mkHeap (<[n := mkBytesIO (d ++ concat chunks)
                                (length (d ++ concat chunks)) false]> (bufs h))
              (stdout h)).
Proof.
  revert d h. induction chunks as [| c cs IH]; intros d h H.
  - simpl. unfold ret. rewrite app_nil_r, (list_insert_id _ _ _ H).
    by rewrite heap_eta.
  - simpl. unfold mbind, M_bind, bind. rewrite (write_at_end n c d h H).
    rewrite (IH (d ++ c)).
    + cbn [bufs stdout]. by rewrite list_insert_insert_eq, (assoc_L (++)).
    + cbn [bufs]. apply list_lookup_insert_eq. by apply lookup_lt_Some in H.
Qed.

(** X6: slurp of a stream stage that still needs input raises
    RuntimeError: the composition with the terminal stage succeeds, the
    call of the result does not, and neither action is entered. *)
Theorem slurp_needs_standalone (f : Filter.t) (h : heap) :
  IoSpec.type (Filter.output f) = "stream" ->
  IoSpec.required (Filter.input f) = true ->
  succeeds (Filter__or__ f slurp_filter) /\
  slurp f h = (Raise RuntimeError, h).
Proof.
  intros Hout Hin. unfold slurp. rewrite (or_stream f slurp_filter Hout eq_refl).
  split; [apply succeeds_Return |].
  unfold Filter.__call__. cbn [Filter.input]. by rewrite Hin.
Qed.

Lemma slurp_needs_standalone_witness :
  slurp Examples.cat Examples.empty_heap
    = (Raise RuntimeError, Examples.empty_heap).
Proof.
  apply (slurp_needs_standalone Examples.cat Examples.empty_heap); reflexivity.
Defined.

(** X7: whatever bytes [d] the stage leaves in its sink, slurp returns a
    prefix [r] of [d] that does not end in a newline and differs from [d]
    by newline bytes only; empty output and output made of newlines alone
    both give the empty bytes.  The buffer stays in the store, fully
    read, and slurp itself writes nothing to standard output. *)
Theorem slurp_strips_only_newlines (f : Filter.t) (h h2 : heap) (v : value)
    (d : bytes) (p : nat) :
  IoSpec.type (Filter.output f) = "stream" ->
  IoSpec.required (Filter.input f) = false ->
  Filter.thunk f [VNone; VStream (Buf (fresh_buffer h))] (with_fresh_buffer h)
    = (Return v, h2) ->
  bufs h2 !! fresh_buffer h = Some (mkBytesIO d p false) ->
  exists (r : bytes) (k : nat),
    slurp f h =
      (Return (VBytes r),
       mkHeap (<[fresh_buffer h := mkBytesIO d (length d) false]> (bufs h2))
              (stdout h2)) /\
    d = r ++ replicate k x0a /\
    last r <> Some x0a /\
    (d = replicate (length d) x0a -> r = []).
Proof.
  intros Hout Hin Hrun Hbuf.
  destruct (rstrip_newline_decompose d) as [k Hk].
  exists (rstrip newline d), k.
  split; [by apply (slurp_run f h h2 v d p) |].
  split; [done |]. split; [apply rstrip_newline_no_trailing |].
  intros ->. by apply rstrip_all_stripped.
Qed.

Lemma slurp_strips_only_newlines_witness :
  exists (r : bytes) (k : nat),
    slurp (Examples.writer [[x0a]; [x0a]]) Examples.empty_heap =
      (Return (VBytes r), mkHeap [mkBytesIO [x0a; x0a] 2 false] []) /\
    [x0a; x0a] = r ++ replicate k x0a /\
    last r <> Some x0a /\
    ([x0a; x0a] = replicate 2 x0a -> r = []).
Proof.
  apply (slurp_strips_only_newlines (Examples.writer [[x0a]; [x0a]])
           Examples.empty_heap (mkHeap [mkBytesIO [x0a; x0a] 2 false] [])
           VNone [x0a; x0a] 2); reflexivity.
Defined.

(** X8: the two entry points see the same bytes.  For a stream stage
    that needs no input and writes [chunks] to whatever sink it is given,
    to_stdout appends their concatenation to what standard output already
    holds, allocates nothing and returns None; slurp returns that
    concatenation without its trailing newlines, leaves standard output
    alone and leaves one more buffer in the store. *)
Theorem to_stdout_and_slurp_agree (f : Filter.t) (chunks : list bytes)
    (h : heap) :
  IoSpec.type (Filter.output f) = "stream" ->
  IoSpec.required (Filter.input f) = false ->
  (forall out : value,
     Filter.thunk f [VNone; out] = Examples.write_all out chunks) ->
  to_stdout f h
    = (Return VNone, mkHeap (bufs h) (stdout h ++ concat chunks)) /\
  slurp f h
    = (Return (VBytes (rstrip newline (concat chunks))),
       mkHeap (bufs h ++ [mkBytesIO (concat chunks)
                                    (length (concat chunks)) false])
              (stdout h)).
Proof.
  intros Hout Hin Hf. split.
  - unfold to_stdout. rewrite Hin, Hout. cbn [String.eqb Ascii.eqb Bool.eqb negb].
    unfold mbind, M_bind, bind. by rewrite Hf, write_all_stdout.
  - pose proof (write_all_buffer (fresh_buffer h) chunks [] (with_fresh_buffer h)
                  (fresh_buffer_empty h)) as Hrun.
    rewrite <- Hf in Hrun. cbn [app] in Hrun.
    rewrite (slurp_run f h _ VNone (concat chunks) (length (concat chunks))
               Hout Hin Hrun).
    + cbn [bufs stdout with_fresh_buffer]. unfold fresh_buffer.
      by rewrite list_insert_insert_eq, insert_fresh.
    + cbn [bufs with_fresh_buffer]. unfold fresh_buffer.
      rewrite insert_fresh. by apply list_lookup_middle.
Qed.

Lemma to_stdout_and_slurp_agree_witness :
  to_stdout (Examples.writer [Examples.hello; newline]) (mkHeap [] Examples.abc)
    = (Return VNone, mkHeap [] (Examples.abc ++ Examples.hello ++ newline)) /\
  slurp (Examples.writer [Examples.hello; newline]) (mkHeap [] Examples.abc)
    = (Return (VBytes Examples.hello),
       mkHeap [mkBytesIO (Examples.hello ++ newline) 6 false] Examples.abc).
Proof.
  apply (to_stdout_and_slurp_agree (Examples.writer [Examples.hello; newline])
           [Examples.hello; newline] (mkHeap [] Examples.abc)).
  - reflexivity.
  - reflexivity.
  - intros out. reflexivity.
Defined.

(** ** Two stages and an entry point *)

Lemma fresh_after_fresh (h : heap) :
  fresh_buffer (with_fresh_buffer h) = S (fresh_buffer h).
Proof.
  unfold fresh_buffer, with_fresh_buffer. cbn [bufs].
  rewrite length_app. simpl. lia.
Qed.

Lemma insert_fresh_buffer (h : heap) (x y : BytesIO) :
  <[fresh_buffer h := x]> (bufs h ++ [y]) = bufs h ++ [x].
Proof. apply insert_fresh. Qed.

Lemma lookup_fresh_buffer (h : heap) (x : BytesIO) :
  (bufs h ++ [x]) !! fresh_buffer h = Some x.
Proof. by apply list_lookup_middle. Qed.

Lemma transform_to_stdout (g : bytes -> bytes) (n : nat) (d : bytes) (h : heap) :
  bufs h !! n = Some (mkBytesIO d 0 false) ->
  Stages.transform g [VStream (Buf n); VStream Stdout] h =
    (Return (VInt (Z.of_nat (length (g d)))),
     mkHeap (<[n := mkBytesIO d (length d) false]> (bufs h))
            (stdout h ++ g d)).
Proof.
  intros H. unfold Stages.transform, lambda2, py_read, py_write.
  unfold mbind, M_bind, bind. by rewrite (read_from_start n d h H).
Qed.

Lemma transform_to_buffer (g : bytes -> bytes) (n m : nat) (d b : bytes)
    (h : heap) :
  n <> m ->
  bufs h !! n = Some (mkBytesIO d 0 false) ->
  bufs h !! m = Some (mkBytesIO b (length b) false) ->
  Stages.transform g [VStream (Buf n); VStream (Buf m)] h =
    (Return (VInt (Z.of_nat (length (g d)))),
     mkHeap (<[m := mkBytesIO (b ++ g d) (length (b ++ g d)) false]>
               (<[n := mkBytesIO d (length d) false]> (bufs h)))
            (stdout h)).
Proof.
  intros Hne Hn Hm. unfold Stages.transform, lambda2, py_read, py_write.
  unfold mbind, M_bind, bind. rewrite (read_from_start n d h Hn).
  rewrite (write_at_end m (g d) b); [done |].
  cbn [bufs]. by rewrite list_lookup_insert_ne.
Qed.

(** The left stage writes [chunks], the right one is [transform g]: what
    the pipe does when its sink is standard output, and when its sink is
    the buffer allocated just before its own. *)
Lemma pipe_transform_to_stdout (A B : Filter.t) (chunks : list bytes)
    (g : bytes -> bytes) (h : heap) :
  (forall out : value,
     Filter.thunk A [VNone; out] = Examples.write_all out chunks) ->
  Filter.thunk B = Stages.transform g ->
  pipe_by_stream A B [VNone; VStream Stdout] h =
    (Return (VInt (Z.of_nat (length (g (concat chunks))))),
     mkHeap (bufs h ++ [mkBytesIO (concat chunks) (length (concat chunks)) false])
            (stdout h ++ g (concat chunks))).
Proof.
  intros HA HB.
  pose proof (write_all_buffer (fresh_buffer h) chunks [] (with_fresh_buffer h)
                (fresh_buffer_empty h)) as Hrun.
  rewrite <- HA in Hrun. cbn [app bufs stdout with_fresh_buffer] in Hrun.
  rewrite insert_fresh_buffer in Hrun.
  rewrite (pipe_by_stream_materializes A B VNone (VStream Stdout) h _ VNone
             (concat chunks) (length (concat chunks)) Hrun)
    by apply lookup_fresh_buffer.
  rewrite HB. unfold rewound. cbn [bufs stdout].
  rewrite insert_fresh_buffer.
  rewrite (transform_to_stdout g (fresh_buffer h) (concat chunks))
    by apply lookup_fresh_buffer.
  cbn [bufs stdout]. by rewrite insert_fresh_buffer.
Qed.

Lemma pipe_transform_to_buffer (A B : Filter.t) (chunks : list bytes)
    (g : bytes -> bytes) (h : heap) :
  (forall out : value,
     Filter.thunk A [VNone; out] = Examples.write_all out chunks) ->
  Filter.thunk B = Stages.transform g ->
  pipe_by_stream A B [VNone; VStream (Buf (fresh_buffer h))] (with_fresh_buffer h) =
    (Return (VInt (Z.of_nat (length (g (concat chunks))))),
     mkHeap ((bufs h ++ [mkBytesIO (g (concat chunks))
                                   (length (g (concat chunks))) false])
               ++ [mkBytesIO (concat chunks) (length (concat chunks)) false])
            (stdout h)).
Proof.
  intros HA HB. set (h1 := with_fresh_buffer h).
  pose proof (write_all_buffer (fresh_buffer h1) chunks [] (with_fresh_buffer h1)
                (fresh_buffer_empty h1)) as Hrun.
  rewrite <- HA in Hrun. cbn [app] in Hrun.
  unfold with_fresh_buffer at 2 3 in Hrun. cbn [bufs stdout] in Hrun.
  rewrite insert_fresh_buffer in Hrun.
  rewrite (pipe_by_stream_materializes A B VNone _ h1 _ VNone
             (concat chunks) (length (concat chunks)) Hrun)
    by apply lookup_fresh_buffer.
  rewrite HB. unfold rewound. cbn [bufs stdout].
  rewrite insert_fresh_buffer.
  rewrite (transform_to_buffer g (fresh_buffer h1) (fresh_buffer h)
             (concat chunks) []).
  - cbn [bufs stdout app]. rewrite insert_fresh_buffer.
    subst h1. cbn [bufs stdout with_fresh_buffer].
    rewrite insert_app_l by (unfold fresh_buffer; rewrite length_app; simpl; lia).
    by rewrite insert_fresh_buffer.
  - subst h1. rewrite fresh_after_fresh. lia.
  - cbn [bufs]. apply lookup_fresh_buffer.
  - cbn [bufs]. rewrite lookup_app_l
      by (subst h1; fold (fresh_buffer (with_fresh_buffer h));
          rewrite fresh_after_fresh; lia).
    apply fresh_buffer_empty.
Qed.

(** X9: a writer piped into a transformer, sent to standard output.  The
    composed pipeline appends [g] of everything the writer wrote to what
    standard output already holds, returns None, and leaves one buffer in
    the store: the writer's output, fully read. *)
Theorem to_stdout_of_pipeline (A B : Filter.t) (chunks : list bytes)
    (g : bytes -> bytes) (h : heap) :
  IoSpec.type (Filter.output A) = "stream" ->
  IoSpec.type (Filter.input B) = "stream" ->
  IoSpec.type (Filter.output B) = "stream" ->
  IoSpec.required (Filter.input A) = false ->
  (forall out : value,
     Filter.thunk A [VNone; out] = Examples.write_all out chunks) ->
  Filter.thunk B = Stages.transform g ->
  (F ← Filter__or__ A B; Return (to_stdout F h)) =
    Return (Return VNone,
            mkHeap (bufs h ++ [mkBytesIO (concat chunks)
                                         (length (concat chunks)) false])
                   (stdout h ++ g (concat chunks))).
Proof.
  intros HA HB HoB HiA Hwrites Htrans. rewrite (or_stream A B HA HB).
  unfold mbind at 1, outcome_bind. f_equal.
  unfold to_stdout. cbn [Filter.input Filter.output Filter.thunk].
  rewrite HiA, HoB. cbn [String.eqb Ascii.eqb Bool.eqb negb].
  unfold mbind, M_bind, bind.
  by rewrite (pipe_transform_to_stdout A B chunks g h Hwrites Htrans).
Qed.

Lemma to_stdout_of_pipeline_witness :
  (F ← Filter__or__ (Examples.writer [Examples.abc; Examples.XY])
         (Filter.mk (IoSpec.mk "stream" true) (IoSpec.mk "stream" true)
                    (Stages.transform reverse));
   Return (to_stdout F Examples.empty_heap)) =
    Return (Return VNone,
            mkHeap [mkBytesIO (Examples.abc ++ Examples.XY) 5 false]
                   (reverse (Examples.abc ++ Examples.XY))).
Proof.
  apply (to_stdout_of_pipeline (Examples.writer [Examples.abc; Examples.XY])
           (Filter.mk (IoSpec.mk "stream" true) (IoSpec.mk "stream" true)
                      (Stages.transform reverse))
           [Examples.abc; Examples.XY] reverse Examples.empty_heap);
    reflexivity.
Defined.

(** X10: the same pipeline, slurped.  Two buffers are in play, the one
    slurp's pipe allocates and the one the inner pipe allocates after it;
    neither disturbs the other.  The result is [g] of everything the
    writer wrote, without trailing newlines; standard output is left
    alone. *)
Theorem slurp_of_pipeline (A B : Filter.t) (chunks : list bytes)
    (g : bytes -> bytes) (h : heap) :
  IoSpec.type (Filter.output A) = "stream" ->
  IoSpec.type (Filter.input B) = "stream" ->
  IoSpec.type (Filter.output B) = "stream" ->
  IoSpec.required (Filter.input A) = false ->
  (forall out : value,
     Filter.thunk A [VNone; out] = Examples.write_all out chunks) ->
  Filter.thunk B = Stages.transform g ->
  (F ← Filter__or__ A B; Return (slurp F h)) =
    Return (Return (VBytes (rstrip newline (g (concat chunks)))),
            mkHeap (bufs h ++
                      [mkBytesIO (g (concat chunks))
                                 (length (g (concat chunks))) false;
                       mkBytesIO (concat chunks)
                                 (length (concat chunks)) false])
                   (stdout h)).
Proof.
  intros HA HB HoB HiA Hwrites Htrans. rewrite (or_stream A B HA HB).
  unfold mbind at 1, outcome_bind. f_equal.
  rewrite (slurp_run (Filter.mk (Filter.input A) (Filter.output B)
                                (pipe_by_stream A B)) h _ _
             (g (concat chunks)) (length (g (concat chunks))) HoB HiA
             (pipe_transform_to_buffer A B chunks g h Hwrites Htrans)).
  - cbn [bufs stdout]. unfold fresh_buffer.
    rewrite insert_app_l by (rewrite length_app; simpl; lia).
    by rewrite insert_fresh, <- (assoc_L (++)).
  - cbn [bufs]. unfold fresh_buffer.
    rewrite lookup_app_l by (rewrite length_app; simpl; lia).
    by apply list_lookup_middle.
Qed.

Lemma slurp_of_pipeline_witness :
  (F ← Filter__or__ (Examples.writer [newline; Examples.abc])
         (Filter.mk (IoSpec.mk "stream" true) (IoSpec.mk "stream" true)
                    (Stages.transform reverse));
   Return (slurp F Examples.empty_heap)) =
    Return (Return (VBytes (reverse Examples.abc)),
            mkHeap [mkBytesIO (reverse Examples.abc ++ newline) 4 false;
                    mkBytesIO (newline ++ Examples.abc) 4 false] []).
Proof.
  apply (slurp_of_pipeline (Examples.writer [newline; Examples.abc])
           (Filter.mk (IoSpec.mk "stream" true) (IoSpec.mk "stream" true)
                      (Stages.transform reverse))
           [newline; Examples.abc] reverse Examples.empty_heap);
    reflexivity.
Defined.

(** ** The Function adapter, continued *)

Ltac split_kind k :=
  destruct (k =? "none"), (k =? "stream"), (k =? "iter"), (k =? "bytes").

Lemma call_on_known_kinds (self : Function.t) (args : list value)
    (kwargs : list (string * value)) :
  str_in (IoSpec.type (Function.input self))
         ["none"; "stream"; "iter"; "bytes"] = true ->
  str_in (IoSpec.type (Function.output self))
         ["none"; "stream"; "iter"; "bytes"] = true ->
  exists thunk,
    Function.__call__ self args kwargs =
      Return (Filter.mk (Function.input self) (Function.output self) thunk).
Proof.
  unfold Function.__call__, Function.pass_input, Function.pass_output,
    str_in, mbind, outcome_bind. cbn [existsb].
  split_kind (IoSpec.type (Function.input self));
    split_kind (IoSpec.type (Function.output self));
    cbn; intros; try discriminate; eauto.
Qed.

(** X11: calling a Function returns a Filter exactly when both declared
    kinds are among 'none', 'stream', 'iter' and 'bytes', and the Filter
    then carries the Function's two specs unchanged; with any other kind
    on either side the call raises AssertionError. *)
Theorem function_call_known_kinds (self : Function.t) (args : list value)
    (kwargs : list (string * value)) :
  let known k := str_in k ["none"; "stream"; "iter"; "bytes"] in
  (known (IoSpec.type (Function.input self)) = true ->
   known (IoSpec.type (Function.output self)) = true ->
   exists thunk,
     Function.__call__ self args kwargs =
       Return (Filter.mk (Function.input self) (Function.output self) thunk)) /\
  (known (IoSpec.type (Function.input self)) = false \/
   known (IoSpec.type (Function.output self)) = false ->
   Function.__call__ self args kwargs = Raise AssertionError).
Proof.
  cbn zeta. split; [apply call_on_known_kinds |].
  unfold Function.__call__, Function.pass_input, Function.pass_output,
    str_in, mbind, outcome_bind. cbn [existsb].
  intros H. revert H.
  split_kind (IoSpec.type (Function.input self));
    split_kind (IoSpec.type (Function.output self));
    cbn; intros [? | ?]; try discriminate; reflexivity.
Qed.

Lemma function_call_known_kinds_witness :
  (exists thunk,
     Function.__call__ (Examples.wrapped "bytes" "iter") [VStr "x"] [] =
       Return (Filter.mk (IoSpec.mk "bytes" true) (IoSpec.mk "iter" true) thunk)) /\
  Function.__call__ (Examples.wrapped "stream" "pipe") [] []
    = Raise AssertionError.
Proof.
  split.
  - apply (proj1 (function_call_known_kinds (Examples.wrapped "bytes" "iter")
                    [VStr "x"] [])); reflexivity.
  - apply (proj2 (function_call_known_kinds (Examples.wrapped "stream" "pipe")
                    [] [])).
    right. reflexivity.
Defined.

(** X12: a wrapped function sent to standard output.  With output kind
    'stream', to_stdout of the Filter the adapter builds enters the
    wrapped function once, with [sys.stdout.buffer] and then the caller's
    arguments when the input kind is 'none', and with None as source
    before them when an input is declared but not required; the
    function's own return value is dropped.  When the declared input is
    required the function is not entered at all. *)
Theorem to_stdout_of_function (self : Function.t) (args : list value)
    (kwargs : list (string * value)) (h : heap) :
  IoSpec.type (Function.output self) = "stream" ->
  let sent := F ← Function.__call__ self args kwargs; Return (to_stdout F h) in
  (IoSpec.type (Function.input self) = "none" ->
   sent = Return ((code (Function.func self) (VStream Stdout :: args) kwargs;;
                   ret VNone) h)) /\
  (str_in (IoSpec.type (Function.input self)) ["stream"; "iter"; "bytes"] = true ->
   IoSpec.required_ (Function.input self) = false ->
   sent = Return ((code (Function.func self)
                        (VNone :: VStream Stdout :: args) kwargs;;
                   ret VNone) h)) /\
  (str_in (IoSpec.type (Function.input self)) ["stream"; "iter"; "bytes"] = true ->
   IoSpec.required_ (Function.input self) = true ->
   sent = Return (Raise RuntimeError, h)).
Proof.
  intros Hout. cbn zeta. split; [| split].
  - intros Hin.
    destruct (call_sink_only self args kwargs Hin Hout) as [thunk [-> Hth]].
    unfold mbind at 1, outcome_bind. f_equal.
    unfold to_stdout, IoSpec.required. cbn [Filter.input Filter.output Filter.thunk].
    rewrite Hin, Hout, Hth. cbn [String.eqb Ascii.eqb Bool.eqb negb].
    by rewrite andb_false_r.
  - intros Hin Hreq.
    destruct (call_source_and_sink self args kwargs Hin Hout) as [thunk [-> Hth]].
    unfold mbind at 1, outcome_bind. f_equal.
    unfold to_stdout, IoSpec.required. cbn [Filter.input Filter.output Filter.thunk].
    rewrite Hreq, Hout, Hth. by cbn [String.eqb Ascii.eqb Bool.eqb negb andb].
  - intros Hin Hreq.
    destruct (call_source_and_sink self args kwargs Hin Hout) as [thunk [-> Hth]].
    unfold mbind at 1, outcome_bind. f_equal.
    unfold to_stdout, IoSpec.required. cbn [Filter.input Filter.output Filter.thunk].
    rewrite Hreq. cbn [andb].
    assert ((IoSpec.type (Function.input self) =? "none") = false) as ->;
      [| done].
    revert Hin. unfold str_in. cbn [existsb].
    destruct (String.eqb_spec (IoSpec.type (Function.input self)) "none")
      as [-> | ?]; [discriminate | done].
Qed.

Lemma to_stdout_of_function_witness :
  (F ← Function.__call__ (filter (output "stream" true Stages.shout))
         [VBytes Examples.hello; VBytes newline] [];
   Return (to_stdout F Examples.empty_heap))
    = Return (Return VNone, mkHeap [] (Examples.hello ++ newline)).
Proof.
  apply (proj1 (to_stdout_of_function
                  (filter (output "stream" true Stages.shout))
                  [VBytes Examples.hello; VBytes newline] []
                  Examples.empty_heap eq_refl)).
  reflexivity.
Defined.

(** X13: a function that was given no [@output] cannot be sent to
    standard output nor slurped.  The adapter still builds a Filter from
    it (the input kind being a known one), but both entry points raise
    RuntimeError on that Filter and leave the store as it was. *)
Theorem undecorated_output_rejected (f : pyfunc) (args : list value)
    (kwargs : list (string * value)) :
  attr_output f = None ->
  str_in (IoSpec.type (Function.input (filter f)))
         ["none"; "stream"; "iter"; "bytes"] = true ->
  exists F,
    Function.__call__ (filter f) args kwargs = Return F /\
    Filter.output F = IoSpec.mk "none" true /\
    forall h : heap,
      to_stdout F h = (Raise RuntimeError, h) /\
      slurp F h = (Raise RuntimeError, h).
Proof.
  intros Hout Hin.
  assert (Ho : Function.output (filter f) = IoSpec.mk "none" true).
  { unfold filter, Function.__init__. cbn [Function.output]. by rewrite Hout. }
  destruct (call_on_known_kinds (filter f) args kwargs)
    as [thunk Hcall]; [done | by rewrite Ho |].
  rewrite Ho in Hcall. eexists. split; [exact Hcall |]. split; [done |].
  intros h. split.
  - unfold to_stdout. cbn [Filter.input Filter.output IoSpec.type].
    by destruct (IoSpec.required _).
  - unfold slurp. by rewrite or_mismatch.
Qed.

Lemma undecorated_output_rejected_witness :
  exists F,
    Function.__call__ (filter Stages.shout) [VBytes Examples.hello] []
      = Return F /\
    Filter.output F = IoSpec.mk "none" true /\
    forall h : heap,
      to_stdout F h = (Raise RuntimeError, h) /\
      slurp F h = (Raise RuntimeError, h).
Proof.
  apply (undecorated_output_rejected Stages.shout [VBytes Examples.hello] []);
    reflexivity.
Defined.

(** X14: what the decorators set is what the adapter reads.  [@input]
    and [@output] may be stacked in either order; a kind given twice is
    the one applied last; neither touches the body nor the argument
    descriptors; and a function decorated with neither gets
    [IoSpec('none', True)] on both sides, which is never required. *)
Theorem decorators_round_trip (f : pyfunc) (ti to tj : string) (ri ro rj : bool) :
  Function.input (filter (input ti ri (output to ro f))) = IoSpec.mk ti ri /\
  Function.output (filter (input ti ri (output to ro f))) = IoSpec.mk to ro /\
  input ti ri (output to ro f) = output to ro (input ti ri f) /\
  input ti ri (input tj rj f) = input ti ri f /\
  output to ro (output tj rj f) = output to ro f /\
  Function.argspecs (filter (input ti ri (output to ro f)))
    = Function.argspecs (filter f) /\
  code (Function.func (filter (input ti ri (output to ro f)))) = code f /\
  (forall c : list value -> list (string * value) -> M value,
     Function.input (filter (mkFunc c None None None)) = IoSpec.mk "none" true /\
     Function.output (filter (mkFunc c None None None)) = IoSpec.mk "none" true /\
     IoSpec.required (Function.input (filter (mkFunc c None None None))) = false).
Proof. by repeat split. Qed.

Lemma arguments_fold (specs : list Argspec.t) (f : pyfunc) :
  code (arguments specs f) = code f /\
  attr_input (arguments specs f) = attr_input f /\
  attr_output (arguments specs f) = attr_output f /\
  default [] (attr_argspecs (arguments specs f))
    = default [] (attr_argspecs f) ++ specs.
Proof.
  revert f. induction specs as [| s specs IH]; intros f.
  - simpl. by rewrite app_nil_r.
  - unfold arguments in *. cbn [foldl].
    destruct (IH (argument (Argspec.type s) (Argspec.n s) f))
      as (-> & -> & -> & ->).
    repeat split. simpl. destruct s. by rewrite <- (assoc_L (++)).
Qed.

(** X15: [@argument] descriptors accumulate in the order in which the
    decorators are applied, after those the function already carried,
    and leave the declared kinds alone.  They are metadata only: the
    Filter the adapter builds for given arguments is the same with and
    without them, whatever the number of arguments. *)
Theorem arguments_accumulate (specs : list Argspec.t) (f : pyfunc)
    (args : list value) (kwargs : list (string * value)) :
  Function.argspecs (filter (arguments specs f))
    = Function.argspecs (filter f) ++ specs /\
  Function.input (filter (arguments specs f)) = Function.input (filter f) /\
  Function.output (filter (arguments specs f)) = Function.output (filter f) /\
  Function.__call__ (filter (arguments specs f)) args kwargs
    = Function.__call__ (filter f) args kwargs.
Proof.
  destruct (arguments_fold specs f) as (Hc & Hi & Ho & Ha).
  unfold filter, Function.__init__, Function.__call__.
  cbn [Function.argspecs Function.input Function.output Function.func].
  by rewrite Hc, Hi, Ho, Ha.
Qed.

(** ** pysh.subprocess *)

(** X16: slurp_cmd strips the trailing newlines of what the command
    printed, and nothing else.  When the words are built and the process
    returns [raw], the result [r] does not end in a newline and [raw] is
    [r] followed by newline bytes only; it is the value that
    [pysh.filters.slurp] returns for a stage that leaves the same bytes
    in its sink.  When the words cannot be built, the error comes back
    with the operating system's state untouched, whatever the process
    runner would have done. *)
Theorem slurp_cmd_strips {World Err : Type}
    (shwords : string -> list value -> list (string * value) -> Err + list string)
    (check_output : list string -> value -> value -> value -> value ->
                    World -> (Err + bytes) * World)
    (fmt : string) (args : list value) (_stdin _stderr _cwd _timeout : value)
    (kwargs : list (string * value)) (w : World) :
  (forall (words : list string) (raw : bytes) (w' : World),
     shwords fmt args kwargs = inr words ->
     check_output words _stdin _stderr _cwd _timeout w = (inr raw, w') ->
     exists (r : bytes) (k : nat),
       Subprocess.slurp_cmd shwords check_output fmt args
         _stdin _stderr _cwd _timeout kwargs w = (inr (VBytes r), w') /\
       raw = r ++ replicate k x0a /\
       last r <> Some x0a /\
       forall (f : Filter.t) (h h2 : heap) (v : value) (p : nat),
         IoSpec.type (Filter.output f) = "stream" ->
         IoSpec.required (Filter.input f) = false ->
         Filter.thunk f [VNone; VStream (Buf (fresh_buffer h))]
                      (with_fresh_buffer h) = (Return v, h2) ->
         bufs h2 !! fresh_buffer h = Some (mkBytesIO raw p false) ->
         fst (slurp f h) = Return (VBytes r)) /\
  (forall e : Err,
     shwords fmt args kwargs = inl e ->
     Subprocess.slurp_cmd shwords check_output fmt args
       _stdin _stderr _cwd _timeout kwargs w = (inl e, w)).
Proof.
  unfold Subprocess.slurp_cmd. split.
  - intros words raw w' -> ->.
    destruct (rstrip_newline_decompose raw) as [k Hk].
    exists (rstrip newline raw), k.
    split; [done |]. split; [done |].
    split; [apply rstrip_newline_no_trailing |].
    intros f h h2 v p Hout Hin Hrun Hbuf.
    by rewrite (slurp_run f h h2 v raw p Hout Hin Hrun Hbuf).
  - by intros e ->.
Qed.

Lemma slurp_cmd_strips_witness :
  exists (r : bytes) (k : nat),
    Subprocess.slurp_cmd (World := unit) (Err := string)
      (fun fmt _ _ => inr [fmt])
      (fun _ _ _ _ _ w => (inr (Examples.hello ++ [x0a; x0a]), w))
      "echo hello" [] VNone VNone VNone VNone [] tt = (inr (VBytes r), tt) /\
    Examples.hello ++ [x0a; x0a] = r ++ replicate k x0a /\
    last r <> Some x0a.
Proof.
  destruct (proj1 (slurp_cmd_strips (World := unit) (Err := string)
                     (fun fmt _ _ => inr [fmt])
                     (fun _ _ _ _ _ w => (inr (Examples.hello ++ [x0a; x0a]), w))
                     "echo hello" [] VNone VNone VNone VNone [] tt)
              ["echo hello"] (Examples.hello ++ [x0a; x0a]) tt eq_refl eq_refl)
    as (r & k & H1 & H2 & H3 & _).
  exists r, k. by repeat split.
Defined.
